(** * sushi-polygon-ema: the EMA crossover strategy's decision function

    A shallow embedding of [src/strategy/sushi-polygon-ema.py].  The module
    holds one function with logic, [decide_trades]; everything else in the
    file is configuration.  Python floats are IEEE binary64 values, which
    is what [PrimFloat.float] is, so prices, EMA values and cash amounts
    are primitive floats and [<] / [>] are the primitive comparisons (false
    on NaN).  The imported collaborators ([pandas_ta.ema], the candle
    universe, the portfolio state and [PositionManager]) are not part of
    the repository; they are parameters of the embedding. *)

From Stdlib Require Import ZArith List String Bool Floats Lia.
Import ListNotations.

Set Warnings "-inexact-float".
Local Open Scope Z_scope.

(** ** Floats as Python compares them *)

Module Float.

Definition lt (x y : float) : bool := PrimFloat.ltb x y.
(** Python's [x > y] on floats is [y < x]. *)
Definition gt (x y : float) : bool := PrimFloat.ltb y x.
Definition eq (x y : float) : bool := PrimFloat.eqb x y.

End Float.

Declare Scope pyfloat_scope.
Delimit Scope pyfloat_scope with py.
Infix "<" := Float.lt : pyfloat_scope.
Infix ">" := Float.gt : pyfloat_scope.
Infix "==" := Float.eq (at level 70) : pyfloat_scope.

(** ** Exceptions and side effects

    A cycle either returns or raises; on the way it logs, asks the position
    manager for trades and plots indicators.  A computation is its outcome
    together with the effects it performed, in program order; effects
    performed before an exception is raised stay performed. *)

Inductive exn : Type := IndexError | AssertionError.

Inductive outcome (A : Type) : Type :=
| Returned (a : A)
| Raised (e : exn).
Arguments Returned {A} a.
Arguments Raised {A} e.

Section Effects.
Context {E : Type}.

Definition M (A : Type) : Type := (outcome A * list E)%type.

Definition ret {A} (a : A) : M A := (Returned a, []).
Definition raise {A} (e : exn) : M A := (Raised e, []).
Definition emit (ev : E) : M unit := (Returned tt, [ev]).

Definition bind {A B} (m : M A) (k : A -> M B) : M B :=
  match m with
  | (Returned a, t) => let (o, t') := k a in (o, t ++ t')
  | (Raised e, t) => (Raised e, t)
  end.

(** Python's [assert c]. *)
Definition assert (c : bool) : M unit :=
  if c then ret tt else raise AssertionError.

Definition result {A} (m : M A) : outcome A := fst m.
Definition effects {A} (m : M A) : list E := snd m.
End Effects.
Arguments M E A : clear implicits.

Notation "x <- m ;; k" := (bind m (fun x => k))
  (at level 61, m at next level, right associativity).
Notation "m ;; k" := (bind m (fun _ => k))
  (at level 61, right associativity).

(** ** Data *)

(** A [pd.Timestamp] / [datetime.datetime], to the nanosecond. *)
Record Timestamp : Type := datetime {
  year : Z; month : Z; day : Z;
  hour : Z; minute : Z; second : Z; nanosecond : Z
}.

Definition Timestamp_eqb (a b : Timestamp) : bool :=
  (year a =? year b) && (month a =? month b) && (day a =? day b) &&
  (hour a =? hour b) && (minute a =? minute b) && (second a =? second b) &&
  (nanosecond a =? nanosecond b).

(** A [pd.Series] of floats, oldest first. *)
Definition Series : Type := list float.

Definition len {A} (s : list A) : Z := Z.of_nat (List.length s).

(** [s.iloc[i]]: a negative [i] counts from the end; out of range raises. *)
Definition iloc {E} (s : Series) (i : Z) : M E float :=
  let j := if i <? 0 then len s + i else i in
  if (j <? 0) || (len s <=? j) then raise IndexError
  else match nth_error s (Z.to_nat j) with
       | Some x => ret x
       | None => raise IndexError
       end.

(** One OHLCV candle of the candle source; a data frame is its rows. *)
Record Candle : Type := {
  candle_timestamp : Timestamp;
  open : float; high : float; low : float; close : float; volume : float
}.
Definition DataFrame : Type := list Candle.

(** [candles["close"]] *)
Definition column_close (candles : DataFrame) : Series := map close candles.

(** ** Configuration: the module-level constants *)

Definition POSITION_SIZE : float := 0.70%float.
Definition BATCH_SIZE : Z := 90.
Definition SLOW_EMA_CANDLE_COUNT : Z := 10.
Definition FAST_EMA_CANDLE_COUNT : Z := 3.
Definition START_AT : Timestamp := datetime 2022 1 1 0 0 0 0.
Definition END_AT : Timestamp := datetime 2022 12 30 0 0 0 0.
Definition INITIAL_DEPOSIT : Z := 10000.
Definition STOP_LOSS_PCT : float := 0.993%float.

(** ** Collaborators *)

Inductive LogLevel : Type := WARNING | TRADE.
Inductive PlotKind : Type := technical_indicator_on_price.

(** What a cycle does to the outside world. *)
Inductive event (Pair : Type) : Type :=
| Log (level : LogLevel) (msg : string)
| Open1xLong (pair : Pair) (value : float) (stop_loss_pct : float)
| CloseAll
| PlotIndicator (timestamp : Timestamp) (name : string) (kind : PlotKind)
                (value : float) (colour : string).
Arguments Log {Pair} level msg.
Arguments Open1xLong {Pair} pair value stop_loss_pct.
Arguments CloseAll {Pair}.
Arguments PlotIndicator {Pair} timestamp name kind value colour.

(** The trading universe, as far as the strategy reads it:
    [universe.pairs.get_single()] and
    [universe.candles.get_single_pair_data(timestamp, sample_count=n)]. *)
Record Universe (Pair : Type) : Type := {
  pairs_get_single : Pair;
  candles_get_single_pair_data : Timestamp -> Z -> DataFrame
}.
Arguments pairs_get_single {Pair} u.
Arguments candles_get_single_pair_data {Pair} u timestamp sample_count.

(** A [PositionManager] bound to one cycle: what its three methods answer. *)
Record PositionManager (Pair TradeExecution : Type) : Type := {
  is_any_open : bool;
  open_1x_long : Pair -> float -> float -> list TradeExecution;
  close_all : list TradeExecution
}.
Arguments is_any_open {Pair TradeExecution} p.
Arguments open_1x_long {Pair TradeExecution} p pair value stop_loss_pct.
Arguments close_all {Pair TradeExecution} p.

(** The values read and derived at lines 102-118 of the source. *)
Record Signals : Type := {
  slow_ema_latest : float;
  fast_ema_latest : float;
  price_latest : float;
  slow_ema_crossover : bool;
  slow_ema_crossunder : bool;
  fast_ema_crossunder : bool
}.

(** ** The decision function *)

Section Strategy.
Context {Pair TradeExecution State PricingModel : Type}.

(** [pandas_ta.ema(close, length=n)]: [None] or a series. *)
Variable ema : Series -> Z -> option Series.
(** [state.portfolio.get_current_cash()] *)
Variable portfolio_get_current_cash : State -> float.
(** [PositionManager(timestamp, universe, state, pricing_model)] *)
Variable PositionManager_new :
  Timestamp -> Universe Pair -> State -> PricingModel ->
  PositionManager Pair TradeExecution.


Definition logger_warning (msg : string) : M (event Pair) unit := emit (Log WARNING msg).
Definition logger_trade (msg : string) : M (event Pair) unit := emit (Log TRADE msg).

Definition plot_indicator (timestamp : Timestamp) (name : string)
    (kind : PlotKind) (value : float) (colour : string) : M (event Pair) unit :=
  emit (PlotIndicator timestamp name kind value colour).

(** The two calls that ask for trades: the request is an effect, the
    trades are what the position manager answers. *)
Definition call_open_1x_long (position_manager : PositionManager Pair TradeExecution)
    (pair : Pair) (value stop_loss_pct : float) : M (event Pair) (list TradeExecution) :=
  emit (Open1xLong pair value stop_loss_pct) ;;
  ret (open_1x_long position_manager pair value stop_loss_pct).

Definition call_close_all (position_manager : PositionManager Pair TradeExecution)
    : M (event Pair) (list TradeExecution) :=
  emit CloseAll ;;
  ret (close_all position_manager).

(** Lines 102-118: the latest values and the three flags.  In each flag
    the two [iloc] reads of the left operand come first; the right
    operand of [and] reads nothing new. *)
Definition compute_signals (close_prices slow_ema_series fast_ema_series : Series)
    : M (event Pair) Signals :=
  slow_ema_latest <- iloc slow_ema_series (-1) ;;
  fast_ema_latest <- iloc fast_ema_series (-1) ;;
  price_latest <- iloc close_prices (-1) ;;
  slow_ema_crossover <-
    (p <- iloc close_prices (-3) ;;
     e <- iloc slow_ema_series (-2) ;;
     ret ((p < e)%py && (price_latest > slow_ema_latest)%py)) ;;
  slow_ema_crossunder <-
    (p <- iloc close_prices (-2) ;;
     e <- iloc slow_ema_series (-2) ;;
     ret ((p > e)%py && (price_latest < slow_ema_latest)%py)) ;;
  fast_ema_crossunder <-
    (p <- iloc close_prices (-2) ;;
     e <- iloc fast_ema_series (-2) ;;
     ret ((p > e)%py && (price_latest < fast_ema_latest)%py)) ;;
  ret {| slow_ema_latest := slow_ema_latest;
         fast_ema_latest := fast_ema_latest;
         price_latest := price_latest;
         slow_ema_crossover := slow_ema_crossover;
         slow_ema_crossunder := slow_ema_crossunder;
         fast_ema_crossunder := fast_ema_crossunder |}.

(** Lines 120-151: the open / close decision.  Python's [and] binds
    tighter than [or], as [&&] does over [||]. *)
Definition decide_position (timestamp : Timestamp) (pair : Pair) (cash : float)
    (position_manager : PositionManager Pair TradeExecution) (s : Signals)
    : M (event Pair) (list TradeExecution) :=
  let trades : list TradeExecution := [] in
  if negb (is_any_open position_manager) then
    logger_trade "Starting a new trade"%string ;;
    if slow_ema_crossunder s
       || (price_latest s < slow_ema_latest s)%py
          && Timestamp_eqb timestamp START_AT
    then
      let buy_amount := (cash * POSITION_SIZE)%float in
      new_trades <- call_open_1x_long position_manager pair buy_amount STOP_LOSS_PCT ;;
      ret (trades ++ new_trades)
    else ret trades
  else
    logger_trade "Checking for close"%string ;;
    if slow_ema_crossover s
       || (fast_ema_crossunder s
           && (fast_ema_latest s > slow_ema_latest s)%py)
    then
      new_trades <- call_close_all position_manager ;;
      assert (len new_trades =? 1) ;;
      ret (trades ++ new_trades)
    else ret trades.

(** Lines 156-170. *)
Definition visualise (timestamp : Timestamp) (s : Signals) : M (event Pair) unit :=
  plot_indicator timestamp "Slow EMA"%string technical_indicator_on_price
                 (slow_ema_latest s) "green"%string ;;
  plot_indicator timestamp "Fast EMA"%string technical_indicator_on_price
                 (fast_ema_latest s) "red"%string.

(** [decide_trades(timestamp, universe, state, pricing_model,
    cycle_debug_data)]; the last argument is never read. *)
Definition decide_trades (timestamp : Timestamp) (universe : Universe Pair)
    (state : State) (pricing_model : PricingModel)
    : M (event Pair) (list TradeExecution) :=
  let pair := pairs_get_single universe in
  let cash := portfolio_get_current_cash state in
  let candles := candles_get_single_pair_data universe timestamp BATCH_SIZE in
  let close_prices := column_close candles in
  match ema close_prices SLOW_EMA_CANDLE_COUNT,
        ema close_prices FAST_EMA_CANDLE_COUNT with
  | Some slow_ema_series, Some fast_ema_series =>
      if (len slow_ema_series <? 2) || (len fast_ema_series <? 2) then
        logger_warning "series too short"%string ;;
        ret []
      else
        s <- compute_signals close_prices slow_ema_series fast_ema_series ;;
        let position_manager :=
          PositionManager_new timestamp universe state pricing_model in
        trades <- decide_position timestamp pair cash position_manager s ;;
        visualise timestamp s ;;
        ret trades
  | _, _ =>
      logger_warning "slow_ema_series or fast_ema_series None"%string ;;
      ret []
  end.

End Strategy.


(** ** The EMA engine's contract

    Section 4.1 of the specification ("if N < L, the result is the explicit
    undefined value"), as a predicate on the [ema] parameter. *)

(** EMA Engine: a window of fewer than [length] closes has no EMA. *)
Definition ema_undefined_when_short (ema : Series -> Z -> option Series) : Prop :=
  forall (close_prices : Series) (length : Z),
    len close_prices < length -> ema close_prices length = None.

(** A computation that reads only: it returns or raises, with no effect. *)
Definition silent {E A} (m : M E A) : Prop := effects m = [].

(** ** Reading a trace *)

Definition is_intent {Pair} (ev : event Pair) : bool :=
  match ev with
  | Open1xLong _ _ _ | CloseAll => true
  | _ => false
  end.

Definition is_plot {Pair} (ev : event Pair) : bool :=
  match ev with
  | PlotIndicator _ _ _ _ _ => true
  | _ => false
  end.

(** The trade intents of a cycle, and what it sent to the visualisation. *)
Definition intents {Pair} (t : list (event Pair)) : list (event Pair) :=
  filter is_intent t.
Definition plots {Pair} (t : list (event Pair)) : list (event Pair) :=
  filter is_plot t.

Definition is_log {Pair} (ev : event Pair) : bool :=
  match ev with
  | Log _ _ => true
  | _ => false
  end.

(** The log lines of a cycle. *)
Definition logs {Pair} (t : list (event Pair)) : list (event Pair) :=
  filter is_log t.

(** An effect with the amount of an open left out. *)
Definition forget_value {Pair} (ev : event Pair) : event Pair :=
  match ev with
  | Open1xLong pr _ stop_loss_pct => Open1xLong pr 0%float stop_loss_pct
  | _ => ev
  end.

(** ** A reference EMA engine and a toy portfolio, to run cycles on *)

Module Reference.

Definition float_of_Z (n : Z) : float := PrimFloat.of_uint63 (Uint63.of_Z n).

Definition fsum (xs : Series) : float := fold_left PrimFloat.add xs 0%float.

Fixpoint ema_from (alpha prev : float) (xs : Series) : Series :=
  match xs with
  | [] => []
  | x :: xs' =>
      let y := (alpha * x + (1 - alpha) * prev)%float in
      y :: ema_from alpha y xs'
  end.

(** Modelled from the spec: the EMA Engine of section 4.1, which the source
    imports as [pandas_ta.ema].  Undefined when the window holds fewer than
    [length] closes; otherwise seeded by the average of the first [length]
    closes and continued by the recursion with factor 2 / (length + 1), one
    value per close that has enough history. *)
Definition ema (close_prices : Series) (length : Z) : option Series :=
  if len close_prices <? length then None
  else
    let n := Z.to_nat length in
    let seed := (fsum (firstn n close_prices) / float_of_Z length)%float in
    let alpha := (2 / (float_of_Z length + 1))%float in
    Some (seed :: ema_from alpha seed (skipn n close_prices)).

End Reference.

Module Demo.

Definition Pair : Type := (string * string)%type.
Definition TRADING_PAIR : Pair := ("WETH"%string, "USDC"%string).

(** The trade records of the toy position manager. *)
Inductive Trade : Type :=
| Buy (pair : Pair) (value stop_loss_pct : float)
| Sell (position : nat).

(** A portfolio: its cash and the number of open positions. *)
Record State : Type := { cash : float; open_positions : nat }.

(** One record per opened position, one per closed position. *)
Definition position_manager (_ : Timestamp) (_ : Universe Pair) (state : State)
    (_ : unit) : PositionManager Pair Trade :=
  {| is_any_open := negb (Nat.eqb (open_positions state) 0);
     open_1x_long := fun pair value stop_loss_pct => [Buy pair value stop_loss_pct];
     close_all := map Sell (seq 0 (open_positions state)) |}.

Definition candle (c : float) : Candle :=
  {| candle_timestamp := START_AT;
     open := c; high := c; low := c; close := c; volume := 1%float |}.

(** A universe whose candle source holds the given closes and hands out the
    trailing [sample_count] of them. *)
Definition universe (closes : Series) : Universe Pair :=
  {| pairs_get_single := TRADING_PAIR;
     candles_get_single_pair_data := fun _ sample_count =>
       map candle (skipn (List.length closes - Z.to_nat sample_count) closes) |}.

Definition decide (timestamp : Timestamp) (closes : Series) (state : State)
    : M (event Pair) (list Trade) :=
  decide_trades Reference.ema cash position_manager
                timestamp (universe closes) state tt.

Definition flat : State := {| cash := 10000%float; open_positions := 0 |}.
Definition long : State := {| cash := 3000%float; open_positions := 1 |}.
Definition later : Timestamp := datetime 2022 1 1 1 0 0 0.

(** Eleven rising closes, then a last one. *)
Definition rising_then (p : float) : Series :=
  [10; 11; 12; 13; 14; 15; 16; 17; 18; 19; 20; p]%float.
(** Fifteen falling closes, a bounce, then a last one. *)
Definition falling_then (p2 p1 : float) : Series :=
  [30; 29; 28; 27; 26; 25; 24; 23; 22; 21; 20; 19; 18; 17; 16; p2; p1]%float.

(** The closes before the last three of [rising_then p], and the fast EMA
    values before its last two. *)
Definition rising_pre : Series := [10; 11; 12; 13; 14; 15; 16; 17; 18]%float.
Definition rising_fast_pre : Series := [11; 12; 13; 14; 15; 16; 17; 18]%float.

(** The same for [falling_then 18 14], with the slow EMA values as well. *)
Definition falling_pre : Series :=
  [30; 29; 28; 27; 26; 25; 24; 23; 22; 21; 20; 19; 18; 17]%float.
Definition falling_slow_pre : Series :=
  [25.5; 24.5; 23.499999999999996; 22.499999999999996;
   21.499999999999996; 20.499999999999996]%float.
Definition falling_fast_pre : Series :=
  [29; 28; 27; 26; 25; 24; 23; 22; 21; 20; 19; 18; 17]%float.

(** Twelve equal closes. *)
Definition level : Series := repeat 8%float 12.

(** A portfolio with two positions open. *)
Definition two_positions : State := {| cash := 1%float; open_positions := 2 |}.

(** An engine that answers two points whatever the window. *)
Definition two_point_ema (_ : Series) (_ : Z) : option Series :=
  Some [1; 1]%float.

(** An engine in the manner of [pandas_ta.ema]: a series as long as the
    window, NaN until there is enough history. *)
Definition padded_ema (close_prices : Series) (length : Z) : option Series :=
  option_map (fun s => repeat nan (Z.to_nat length - 1) ++ s)
             (Reference.ema close_prices length).

(** Ten falling closes: just enough for one slow EMA value. *)
Definition falling_ten : Series := [20; 19; 18; 17; 16; 15; 14; 13; 12; 11]%float.

(** A position manager that fills an open in two trades of half the
    amount each. *)
Definition two_fill_manager (_ : Timestamp) (_ : Universe Pair) (state : State)
    (_ : unit) : PositionManager Pair Trade :=
  {| is_any_open := negb (Nat.eqb (open_positions state) 0);
     open_1x_long := fun pair value stop_loss_pct =>
       [Buy pair (value / 2)%float stop_loss_pct;
        Buy pair (value / 2)%float stop_loss_pct];
     close_all := map Sell (seq 0 (open_positions state)) |}.

End Demo.


(** ** Scenario D of the specification, as it is worded

    "State LONG, fast_crossunder true but fast EMA currently still above
    slow EMA: no close."  The tails are named as in the cycles with
    sufficient data below. *)
Definition scenario_D_as_stated {Pair TradeExecution State PricingModel : Type}
    (ema : Series -> Z -> option Series)
    (portfolio_get_current_cash : State -> float)
    (PositionManager_new :
       Timestamp -> Universe Pair -> State -> PricingModel ->
       PositionManager Pair TradeExecution)
    (timestamp : Timestamp) (universe : Universe Pair)
    (state : State) (pricing_model : PricingModel)
    (pre spre fpre : Series) (p3 p2 p1 s2 s1 f2 f1 : float) : Prop :=
  let close_prices :=
    column_close (candles_get_single_pair_data universe timestamp BATCH_SIZE) in
  close_prices = pre ++ [p3; p2; p1] ->
  ema close_prices SLOW_EMA_CANDLE_COUNT = Some (spre ++ [s2; s1]) ->
  ema close_prices FAST_EMA_CANDLE_COUNT = Some (fpre ++ [f2; f1]) ->
  is_any_open (PositionManager_new timestamp universe state pricing_model) = true ->
  ((p2 > f2)%py && (p1 < f1)%py) = true ->
  ((p3 < s2)%py && (p1 > s1)%py) = false ->
  (f1 > s1)%py = true ->
  ~ In CloseAll
       (effects (decide_trades ema portfolio_get_current_cash PositionManager_new
                               timestamp universe state pricing_model)).


(** * Properties *)

(** ** Float comparison *)

Module FloatFacts.

Lemma SFcompare_antisym (a b : spec_float) :
  SFcompare b a = option_map CompOpp (SFcompare a b).
Proof.
  destruct a as [sa|sa| |sa ma ea], b as [sb|sb| |sb mb eb];
    try destruct sa; try destruct sb; simpl; try reflexivity.
  - rewrite (Z.compare_antisym eb ea).
    destruct (eb ?= ea)%Z; simpl; try reflexivity.
    now rewrite (Pos.compare_cont_antisym ma mb Eq).
  - rewrite (Z.compare_antisym eb ea).
    destruct (eb ?= ea)%Z; simpl; try reflexivity.
    now rewrite (Pos.compare_cont_antisym ma mb Eq).
Qed.

(** [<] is asymmetric, also at NaN and at the infinities. *)
Lemma lt_asym (x y : float) : Float.lt x y = true -> Float.lt y x = false.
Proof.
  unfold Float.lt. rewrite !ltb_spec. unfold SFltb.
  rewrite (SFcompare_antisym (Prim2SF x) (Prim2SF y)).
  destruct (SFcompare (Prim2SF x) (Prim2SF y)) as [[ | | ]|];
    simpl; congruence.
Qed.

Lemma gt_lt_false (x y : float) : Float.gt x y = true -> Float.lt x y = false.
Proof. unfold Float.gt. apply lt_asym. Qed.

Lemma lt_gt_false (x y : float) : Float.lt x y = true -> Float.gt x y = false.
Proof. unfold Float.gt. apply lt_asym. Qed.

(** Values that compare equal with [==] are neither [<] nor [>]. *)
Lemma eq_not_lt (x y : float) : Float.eq x y = true -> Float.lt x y = false.
Proof.
  unfold Float.eq, Float.lt. rewrite eqb_spec, ltb_spec. unfold SFeqb, SFltb.
  destruct (SFcompare (Prim2SF x) (Prim2SF y)) as [[ | | ]|];
    simpl; congruence.
Qed.

Lemma eq_not_gt (x y : float) : Float.eq x y = true -> Float.gt x y = false.
Proof.
  unfold Float.eq, Float.gt. rewrite eqb_spec, ltb_spec. unfold SFeqb, SFltb.
  rewrite (SFcompare_antisym (Prim2SF x) (Prim2SF y)).
  destruct (SFcompare (Prim2SF x) (Prim2SF y)) as [[ | | ]|];
    simpl; congruence.
Qed.

Lemma lt_irrefl (x : float) : Float.lt x x = false.
Proof.
  destruct (Float.lt x x) eqn:E; [|reflexivity].
  now rewrite (lt_asym x x E) in E.
Qed.

Lemma SFcompare_refl (a : spec_float) :
  a <> S754_nan -> SFcompare a a = Some Eq.
Proof.
  destruct a as [s|s| |s m e]; simpl; intros H; try reflexivity.
  - now destruct s.
  - congruence.
  - rewrite Z.compare_refl, Pos.compare_cont_refl. now destruct s.
Qed.

(** Only NaN differs from itself, and NaN is neither below nor above
    anything. *)
Lemma nan_not_lt (x y : float) :
  Float.eq x x = false -> Float.lt x y = false /\ Float.lt y x = false.
Proof.
  unfold Float.eq, Float.lt. rewrite eqb_spec, !ltb_spec. unfold SFeqb, SFltb.
  intros H.
  assert (Hn : Prim2SF x = S754_nan).
  { destruct (Prim2SF x) as [s|s| |s m e] eqn:E; try reflexivity;
      rewrite SFcompare_refl in H by discriminate; discriminate H. }
  rewrite Hn. split; [reflexivity|].
  now destruct (Prim2SF y).
Qed.

End FloatFacts.

(** ** The effect monad *)

Section EffectFacts.
Context {E : Type}.

Lemma bind_ret {A B} (a : A) (k : A -> M E B) : bind (ret a) k = k a.
Proof. unfold bind, ret. now destruct (k a). Qed.

Lemma bind_raise {A B} (e : exn) (k : A -> M E B) : bind (raise e) k = raise e.
Proof. reflexivity. Qed.

Lemma bind_emit {B} (ev : E) (k : unit -> M E B) :
  bind (emit ev) k = (result (k tt), ev :: effects (k tt)).
Proof. unfold bind, emit, result, effects. now destruct (k tt). Qed.

Lemma result_bind_emit {B} (ev : E) (k : unit -> M E B) :
  result (bind (emit ev) k) = result (k tt).
Proof. now rewrite bind_emit. Qed.

End EffectFacts.

(** ** Indexing from the end *)

Section IlocFacts.
Context {E : Type}.

Lemma len_nonneg {A} (s : list A) : 0 <= len s.
Proof. unfold len. lia. Qed.

Lemma len_app {A} (s t : list A) : len (s ++ t) = len s + len t.
Proof. unfold len. rewrite length_app. lia. Qed.

(** The element that has [suf] after it is the one [len suf + 1] from the end. *)
Lemma iloc_from_end (s pre suf : Series) (x : float) :
  s = pre ++ x :: suf ->
  iloc (E:=E) s (- (len suf + 1)) = ret x.
Proof.
  intros ->. unfold iloc.
  pose proof (len_nonneg suf) as Hs. pose proof (len_nonneg pre) as Hp.
  replace (- (len suf + 1) <? 0) with true by (symmetry; apply Z.ltb_lt; lia).
  rewrite len_app. change (len (x :: suf)) with (Z.of_nat (S (List.length suf))).
  fold (len suf) in *. rewrite Nat2Z.inj_succ. fold (len suf).
  replace (len pre + Z.succ (len suf) + - (len suf + 1)) with (len pre) by lia.
  replace (len pre <? 0) with false by (symmetry; apply Z.ltb_ge; lia).
  replace (len pre + Z.succ (len suf) <=? len pre) with false
    by (symmetry; apply Z.leb_gt; lia).
  simpl. unfold len. rewrite Nat2Z.id.
  rewrite nth_error_app2 by lia. now rewrite Nat.sub_diag.
Qed.

(** Reading [k] from the end succeeds exactly on series of [k] points or more. *)
Lemma iloc_in_bounds (s : Series) (k : Z) :
  0 < k <= len s -> exists x, iloc (E:=E) s (- k) = ret x.
Proof.
  intros Hk. unfold iloc.
  replace (- k <? 0) with true by (symmetry; apply Z.ltb_lt; lia).
  replace (len s + - k <? 0) with false by (symmetry; apply Z.ltb_ge; lia).
  replace (len s <=? len s + - k) with false by (symmetry; apply Z.leb_gt; lia).
  simpl. destruct (nth_error s (Z.to_nat (len s + - k))) as [x|] eqn:Hn.
  - now exists x.
  - apply nth_error_None in Hn. unfold len in *. lia.
Qed.

Lemma iloc_out_of_bounds (s : Series) (k : Z) :
  len s < k -> iloc (E:=E) s (- k) = raise IndexError.
Proof.
  intros Hk. unfold iloc. pose proof (len_nonneg s).
  replace (- k <? 0) with true by (symmetry; apply Z.ltb_lt; lia).
  replace (len s + - k <? 0) with true by (symmetry; apply Z.ltb_lt; lia).
  reflexivity.
Qed.

End IlocFacts.

Section Tails.
Context {E : Type}.

Lemma iloc_m1 (s pre : Series) (a : float) :
  s = pre ++ [a] -> iloc (E:=E) s (-1) = ret a.
Proof. exact (iloc_from_end s pre [] a). Qed.

Lemma iloc_m2 (s pre : Series) (b a : float) :
  s = pre ++ [b; a] -> iloc (E:=E) s (-2) = ret b.
Proof. exact (iloc_from_end s pre [a] b). Qed.

Lemma iloc_m3 (s pre : Series) (c b a : float) :
  s = pre ++ [c; b; a] -> iloc (E:=E) s (-3) = ret c.
Proof. exact (iloc_from_end s pre [b; a] c). Qed.

End Tails.

Lemma tail2_tail1 {A} (pre : list A) (b a : A) :
  pre ++ [b; a] = (pre ++ [b]) ++ [a].
Proof. now rewrite <- app_assoc. Qed.

Lemma tail3_tail1 {A} (pre : list A) (c b a : A) :
  pre ++ [c; b; a] = (pre ++ [c; b]) ++ [a].
Proof. now rewrite <- app_assoc. Qed.

Lemma tail3_tail2 {A} (pre : list A) (c b a : A) :
  pre ++ [c; b; a] = (pre ++ [c]) ++ [b; a].
Proof. now rewrite <- app_assoc. Qed.

Lemma Timestamp_eqb_eq (a b : Timestamp) : Timestamp_eqb a b = true <-> a = b.
Proof.
  unfold Timestamp_eqb. rewrite !andb_true_iff, !Z.eqb_eq.
  destruct a, b; simpl. split.
  - intros [[[[[[-> ->] ->] ->] ->] ->] ->]. reflexivity.
  - intros H. injection H as -> -> -> -> -> -> ->. repeat split.
Qed.

(** ** The signals *)

Lemma compute_signals_tails {Pair : Type}
    (pre spre fpre : Series) (p3 p2 p1 s2 s1 f2 f1 : float) :
  compute_signals (Pair:=Pair)
    (pre ++ [p3; p2; p1]) (spre ++ [s2; s1]) (fpre ++ [f2; f1]) =
  ret {| slow_ema_latest := s1;
         fast_ema_latest := f1;
         price_latest := p1;
         slow_ema_crossover := (p3 < s2)%py && (p1 > s1)%py;
         slow_ema_crossunder := (p2 > s2)%py && (p1 < s1)%py;
         fast_ema_crossunder := (p2 > f2)%py && (p1 < f1)%py |}.
Proof.
  unfold compute_signals.
  rewrite (iloc_m1 _ _ s1 (tail2_tail1 spre s2 s1)), bind_ret.
  rewrite (iloc_m1 _ _ f1 (tail2_tail1 fpre f2 f1)), bind_ret.
  rewrite (iloc_m1 _ _ p1 (tail3_tail1 pre p3 p2 p1)), bind_ret.
  rewrite (iloc_m3 _ pre p3 p2 p1 eq_refl), bind_ret.
  rewrite (iloc_m2 _ spre s2 s1 eq_refl), !bind_ret.
  rewrite (iloc_m2 _ _ p2 p1 (tail3_tail2 pre p3 p2 p1)), !bind_ret.
  rewrite (iloc_m2 _ fpre f2 f1 eq_refl), !bind_ret.
  reflexivity.
Qed.

Lemma len_ge_tail1 {A} (s : list A) :
  1 <= len s -> exists pre a, s = pre ++ [a].
Proof.
  intros H. destruct (exists_last (l:=s)) as [pre [a ->]].
  - intros ->. unfold len in H. simpl in H. lia.
  - now exists pre, a.
Qed.

Lemma len_ge_tail2 {A} (s : list A) :
  2 <= len s -> exists pre b a, s = pre ++ [b; a].
Proof.
  intros H. destruct (len_ge_tail1 s) as [q [a ->]]; [lia|].
  rewrite len_app in H. change (len [a]) with 1 in H.
  destruct (len_ge_tail1 q) as [pre [b ->]]; [lia|].
  exists pre, b, a. now rewrite <- app_assoc.
Qed.

Lemma len_ge_tail3 {A} (s : list A) :
  3 <= len s -> exists pre c b a, s = pre ++ [c; b; a].
Proof.
  intros H. destruct (len_ge_tail1 s) as [q [a ->]]; [lia|].
  rewrite len_app in H. change (len [a]) with 1 in H.
  destruct (len_ge_tail2 q) as [pre [c [b ->]]]; [lia|].
  exists pre, c, b, a. now rewrite <- app_assoc.
Qed.

Lemma iloc_effects {E} (s : Series) (i : Z) :
  iloc (E:=E) s i = (result (iloc (E:=E) s i), []).
Proof.
  unfold iloc. destruct (orb _ _); [reflexivity|].
  now destruct (nth_error s _).
Qed.

Lemma silent_ret {E A} (a : A) : silent (E:=E) (ret a).
Proof. reflexivity. Qed.

Lemma silent_iloc {E} (s : Series) (i : Z) : silent (iloc (E:=E) s i).
Proof. unfold silent. now rewrite iloc_effects. Qed.

Lemma silent_bind {E A B} (m : M E A) (k : A -> M E B) :
  silent m -> (forall a, silent (k a)) -> silent (bind m k).
Proof.
  unfold silent, effects, bind. destruct m as [[a|e] t]; simpl; intros ->.
  - intros H. specialize (H a). destruct (k a). simpl in *. now subst.
  - reflexivity.
Qed.

Lemma silent_cases {E A} (m : M E A) :
  silent m -> (exists a, m = ret a) \/ (exists e, m = raise e).
Proof.
  unfold silent, effects. destruct m as [[a|e] t]; simpl; intros ->.
  - left. now exists a.
  - right. now exists e.
Qed.

Lemma compute_signals_silent {Pair : Type} (close_prices slow fast : Series) :
  silent (compute_signals (Pair:=Pair) close_prices slow fast).
Proof.
  unfold compute_signals.
  repeat (apply silent_bind; [try apply silent_iloc|intros ?]);
    apply silent_ret.
Qed.

(** [compute_signals] raises nothing but [IndexError]. *)
Lemma iloc_raises {E} (s : Series) (i : Z) (e : exn) :
  iloc (E:=E) s i = raise e -> e = IndexError.
Proof.
  unfold iloc. destruct (orb _ _).
  - unfold raise. congruence.
  - destruct (nth_error s _); unfold raise, ret; congruence.
Qed.

(** ** One cycle *)

Section Cycle.
Context {Pair TradeExecution State PricingModel : Type}.
Variable ema : Series -> Z -> option Series.
Variable portfolio_get_current_cash : State -> float.
Variable PositionManager_new :
  Timestamp -> Universe Pair -> State -> PricingModel ->
  PositionManager Pair TradeExecution.
Variables (timestamp : Timestamp) (universe : Universe Pair)
          (state : State) (pricing_model : PricingModel).

Let cycle : M (event Pair) (list TradeExecution) :=
  decide_trades ema portfolio_get_current_cash PositionManager_new
                timestamp universe state pricing_model.
Let pair : Pair := pairs_get_single universe.
Let cash : float := portfolio_get_current_cash state.
Let close_prices : Series :=
  column_close (candles_get_single_pair_data universe timestamp BATCH_SIZE).
Let position_manager : PositionManager Pair TradeExecution :=
  PositionManager_new timestamp universe state pricing_model.

Let plot_slow (v : float) : event Pair :=
  PlotIndicator timestamp "Slow EMA"%string technical_indicator_on_price v "green"%string.
Let plot_fast (v : float) : event Pair :=
  PlotIndicator timestamp "Fast EMA"%string technical_indicator_on_price v "red"%string.
Let warn_none : event Pair :=
  Log WARNING "slow_ema_series or fast_ema_series None"%string.
Let warn_short : event Pair := Log WARNING "series too short"%string.
Let log_flat : event Pair := Log TRADE "Starting a new trade"%string.
Let log_long : event Pair := Log TRADE "Checking for close"%string.
Let open_intent : event Pair :=
  Open1xLong pair (cash * POSITION_SIZE)%float STOP_LOSS_PCT.

(** The open and the close conditions of lines 131-135 and 146-148. *)
Let opens (s : Signals) : bool :=
  slow_ema_crossunder s
  || (price_latest s < slow_ema_latest s)%py && Timestamp_eqb timestamp START_AT.
Let closes (s : Signals) : bool :=
  slow_ema_crossover s
  || (fast_ema_crossunder s && (fast_ema_latest s > slow_ema_latest s)%py).

Lemma cycle_ema_none :
  ema close_prices SLOW_EMA_CANDLE_COUNT = None \/
  ema close_prices FAST_EMA_CANDLE_COUNT = None ->
  cycle = (Returned [], [warn_none]).
Proof.
  unfold cycle, decide_trades. fold close_prices.
  intros [H|H]; rewrite H.
  - reflexivity.
  - now destruct (ema close_prices SLOW_EMA_CANDLE_COUNT).
Qed.

Lemma cycle_too_short (slow fast : Series) :
  ema close_prices SLOW_EMA_CANDLE_COUNT = Some slow ->
  ema close_prices FAST_EMA_CANDLE_COUNT = Some fast ->
  len slow < 2 \/ len fast < 2 ->
  cycle = (Returned [], [warn_short]).
Proof.
  unfold cycle, decide_trades. fold close_prices.
  intros -> -> H.
  replace ((len slow <? 2) || (len fast <? 2)) with true; [reflexivity|].
  symmetry. apply orb_true_iff. rewrite !Z.ltb_lt. exact H.
Qed.

Lemma cycle_past_guards (slow fast : Series) :
  ema close_prices SLOW_EMA_CANDLE_COUNT = Some slow ->
  ema close_prices FAST_EMA_CANDLE_COUNT = Some fast ->
  2 <= len slow -> 2 <= len fast ->
  cycle =
    (s <- compute_signals close_prices slow fast ;;
     trades <- decide_position timestamp pair cash position_manager s ;;
     visualise timestamp s ;;
     ret trades).
Proof.
  unfold cycle, decide_trades. fold close_prices.
  intros -> -> Hs Hf.
  replace ((len slow <? 2) || (len fast <? 2)) with false; [reflexivity|].
  symmetry. apply orb_false_iff. rewrite !Z.ltb_ge. lia.
Qed.

Lemma decide_position_flat (s : Signals) :
  is_any_open position_manager = false ->
  decide_position timestamp pair cash position_manager s =
    if opens s
    then (Returned (open_1x_long position_manager pair
                      (cash * POSITION_SIZE)%float STOP_LOSS_PCT),
          [log_flat; open_intent])
    else (Returned [], [log_flat]).
Proof.
  intros H. unfold decide_position, opens. rewrite H. simpl.
  now destruct (slow_ema_crossunder s || _).
Qed.

Lemma decide_position_long (s : Signals) :
  is_any_open position_manager = true ->
  decide_position timestamp pair cash position_manager s =
    if closes s
    then if len (close_all position_manager) =? 1
         then (Returned (close_all position_manager), [log_long; CloseAll])
         else (Raised AssertionError, [log_long; CloseAll])
    else (Returned [], [log_long]).
Proof.
  intros H. unfold decide_position, closes. rewrite H. simpl.
  destruct (slow_ema_crossover s || _); [|reflexivity].
  unfold call_close_all, assert. cbn.
  now destruct (len (close_all position_manager) =? 1).
Qed.

(** The rest of a cycle once the signals are there. *)
Lemma after_signals_flat (s : Signals) :
  is_any_open position_manager = false ->
  (trades <- decide_position timestamp pair cash position_manager s ;;
   visualise timestamp s ;;
   ret trades) =
  if opens s
  then (Returned (open_1x_long position_manager pair
                    (cash * POSITION_SIZE)%float STOP_LOSS_PCT),
        [log_flat; open_intent;
         plot_slow (slow_ema_latest s); plot_fast (fast_ema_latest s)])
  else (Returned [],
        [log_flat; plot_slow (slow_ema_latest s); plot_fast (fast_ema_latest s)]).
Proof.
  intros H. rewrite (decide_position_flat s H).
  now destruct (opens s).
Qed.

Lemma after_signals_long (s : Signals) :
  is_any_open position_manager = true ->
  (trades <- decide_position timestamp pair cash position_manager s ;;
   visualise timestamp s ;;
   ret trades) =
  if closes s
  then if len (close_all position_manager) =? 1
       then (Returned (close_all position_manager),
             [log_long; CloseAll;
              plot_slow (slow_ema_latest s); plot_fast (fast_ema_latest s)])
       else (Raised AssertionError, [log_long; CloseAll])
  else (Returned [],
        [log_long; plot_slow (slow_ema_latest s); plot_fast (fast_ema_latest s)]).
Proof.
  intros H. rewrite (decide_position_long s H).
  destruct (closes s); [|reflexivity].
  now destruct (len (close_all position_manager) =? 1).
Qed.

(** *** Warm-up: no EMA, no trade *)

(** C2.  When [ema] answers [None] for the slow or for the fast window the
    cycle returns the empty trade list; it logs one warning, asks for no
    open and no close, and plots nothing.  In particular, with an EMA engine
    that is undefined on windows shorter than its length, this is what
    happens whenever there are fewer closes than the slow or the fast
    window length. *)
Theorem undefined_ema_no_trade :
  ema close_prices SLOW_EMA_CANDLE_COUNT = None \/
  ema close_prices FAST_EMA_CANDLE_COUNT = None \/
  (ema_undefined_when_short ema /\
   (len close_prices < SLOW_EMA_CANDLE_COUNT \/
    len close_prices < FAST_EMA_CANDLE_COUNT)) ->
  result cycle = Returned [] /\
  effects cycle = [warn_none] /\
  intents (effects cycle) = [].
Proof.
  intros H.
  assert (Hn : ema close_prices SLOW_EMA_CANDLE_COUNT = None \/
               ema close_prices FAST_EMA_CANDLE_COUNT = None).
  { destruct H as [H|[H|[Hc [H|H]]]]; auto. }
  rewrite (cycle_ema_none Hn). repeat split.
Qed.

(** *** Cycles with sufficient data

    The window ends in the closes [p3; p2; p1] (oldest first), the slow EMA
    series in [s2; s1] and the fast one in [f2; f1]: so [p1], [s1], [f1] are
    the latest values, [p2], [s2], [f2] those two steps back and [p3] the
    close three steps back. *)

Section SufficientData.
Variables (pre spre fpre : Series) (p3 p2 p1 s2 s1 f2 f1 : float).
Hypothesis H_close : close_prices = pre ++ [p3; p2; p1].
Hypothesis H_slow :
  ema close_prices SLOW_EMA_CANDLE_COUNT = Some (spre ++ [s2; s1]).
Hypothesis H_fast :
  ema close_prices FAST_EMA_CANDLE_COUNT = Some (fpre ++ [f2; f1]).

Let signals : Signals :=
  {| slow_ema_latest := s1;
     fast_ema_latest := f1;
     price_latest := p1;
     slow_ema_crossover := (p3 < s2)%py && (p1 > s1)%py;
     slow_ema_crossunder := (p2 > s2)%py && (p1 < s1)%py;
     fast_ema_crossunder := (p2 > f2)%py && (p1 < f1)%py |}.

Lemma signals_sufficient :
  compute_signals (Pair:=Pair) close_prices (spre ++ [s2; s1]) (fpre ++ [f2; f1])
  = ret signals.
Proof. rewrite H_close. apply compute_signals_tails. Qed.

Lemma cycle_sufficient :
  cycle =
    (trades <- decide_position timestamp pair cash position_manager signals ;;
     visualise timestamp signals ;;
     ret trades).
Proof.
  rewrite (cycle_past_guards _ _ H_slow H_fast).
  - now rewrite signals_sufficient, bind_ret.
  - rewrite len_app. pose proof (len_nonneg spre). change (len [s2; s1]) with 2. lia.
  - rewrite len_app. pose proof (len_nonneg fpre). change (len [f2; f1]) with 2. lia.
Qed.

Lemma cycle_flat :
  is_any_open position_manager = false ->
  cycle =
    if opens signals
    then (Returned (open_1x_long position_manager pair
                      (cash * POSITION_SIZE)%float STOP_LOSS_PCT),
          [log_flat; open_intent; plot_slow s1; plot_fast f1])
    else (Returned [], [log_flat; plot_slow s1; plot_fast f1]).
Proof. intros H. rewrite cycle_sufficient. exact (after_signals_flat signals H). Qed.

Lemma cycle_long :
  is_any_open position_manager = true ->
  cycle =
    if closes signals
    then if len (close_all position_manager) =? 1
         then (Returned (close_all position_manager),
               [log_long; CloseAll; plot_slow s1; plot_fast f1])
         else (Raised AssertionError, [log_long; CloseAll])
    else (Returned [], [log_long; plot_slow s1; plot_fast f1]).
Proof. intros H. rewrite cycle_sufficient. exact (after_signals_long signals H). Qed.

Lemma opens_iff :
  opens signals = true <->
  ((p2 > s2)%py = true /\ (p1 < s1)%py = true) \/
  (timestamp = START_AT /\ (p1 < s1)%py = true).
Proof.
  unfold opens, signals. simpl.
  rewrite orb_true_iff, !andb_true_iff, Timestamp_eqb_eq. tauto.
Qed.

Lemma closes_iff :
  closes signals = true <->
  ((p3 < s2)%py = true /\ (p1 > s1)%py = true) \/
  ((p2 > f2)%py = true /\ (p1 < f1)%py = true /\ (f1 > s1)%py = true).
Proof.
  unfold closes, signals. simpl.
  rewrite orb_true_iff, !andb_true_iff. tauto.
Qed.

(** C3.  With sufficient data the signal computation returns, the rest of
    the cycle runs on the signals it returned, and the three flags have the
    asymmetric offsets: slow crossover compares the close three steps back
    with the slow EMA two steps back, the two crossunders compare the close
    two steps back with the slow (resp. fast) EMA two steps back; each is
    joined with a strict comparison of the latest close with the latest
    value of the same EMA. *)
Theorem signal_flags_offsets :
  exists s : Signals,
    compute_signals (Pair:=Pair) close_prices (spre ++ [s2; s1]) (fpre ++ [f2; f1])
      = ret s /\
    cycle =
      (trades <- decide_position timestamp pair cash position_manager s ;;
       visualise timestamp s ;;
       ret trades) /\
    (slow_ema_crossover s = true <->
       (p3 < s2)%py = true /\ (p1 > s1)%py = true) /\
    (slow_ema_crossunder s = true <->
       (p2 > s2)%py = true /\ (p1 < s1)%py = true) /\
    (fast_ema_crossunder s = true <->
       (p2 > f2)%py = true /\ (p1 < f1)%py = true) /\
    slow_ema_latest s = s1 /\ fast_ema_latest s = f1 /\ price_latest s = p1.
Proof.
  exists signals. split; [exact signals_sufficient|].
  split; [exact cycle_sufficient|].
  unfold signals; simpl. rewrite !andb_true_iff. tauto.
Qed.

(** C4.  With sufficient data and no open position, an open is requested
    exactly when slow crossunder holds or the cycle runs at [START_AT] with
    the latest close strictly below the latest slow EMA.  The request is for
    the traded pair, sized 0.70 times the available cash, with stop loss
    0.993, and the cycle returns the position manager's answer to it.  No
    close is requested, and a slow crossover opens nothing. *)
Theorem flat_opens_iff :
  is_any_open position_manager = false ->
  ((exists pr v sl, In (Open1xLong pr v sl) (effects cycle)) <->
     ((p2 > s2)%py = true /\ (p1 < s1)%py = true) \/
     (timestamp = START_AT /\ (p1 < s1)%py = true)) /\
  (forall pr v sl,
     In (Open1xLong pr v sl) (effects cycle) ->
     pr = pair /\ v = (cash * 0.70)%float /\ sl = 0.993%float /\
     intents (effects cycle) = [Open1xLong pr v sl] /\
     result cycle = Returned (open_1x_long position_manager pr v sl)) /\
  ~ In CloseAll (effects cycle) /\
  ((p3 < s2)%py = true /\ (p1 > s1)%py = true ->
     intents (effects cycle) = [] /\ result cycle = Returned []).
Proof.
  intros Hflat. rewrite (cycle_flat Hflat).
  pose proof opens_iff as Hiff.
  destruct (opens signals) eqn:Ho; unfold effects, result; simpl.
  - split; [|split; [|split]].
    + split; [intros _; now apply Hiff|].
      intros _. exists pair, (cash * POSITION_SIZE)%float, STOP_LOSS_PCT. auto.
    + intros pr v sl [H|[H|[H|[H|[]]]]]; try discriminate H.
      injection H as <- <- <-. repeat split.
    + intros [H|[H|[H|[H|[]]]]]; discriminate H.
    + intros [_ Hgt]. apply FloatFacts.gt_lt_false in Hgt.
      destruct (proj1 Hiff eq_refl) as [[_ H]|[_ H]]; congruence.
  - split; [|split; [|split]].
    + split.
      * intros (pr & v & sl & [H|[H|[H|[]]]]); discriminate H.
      * intros H. apply Hiff in H. discriminate H.
    + intros pr v sl [H|[H|[H|[]]]]; discriminate H.
    + intros [H|[H|[H|[]]]]; discriminate H.
    + intros _. split; reflexivity.
Qed.

(** C5.  With sufficient data and an open position, a close is requested
    exactly when slow crossover holds, or fast crossunder holds with the
    latest fast EMA strictly above the latest slow EMA.  No open is
    requested in such a cycle.  A requested close is asserted to have
    produced exactly one trade record: the cycle returns that one record,
    and raises [AssertionError] if the position manager answered with any
    other number of records.  Without a close the trade list is empty. *)
Theorem long_closes_iff :
  is_any_open position_manager = true ->
  (In CloseAll (effects cycle) <->
     ((p3 < s2)%py = true /\ (p1 > s1)%py = true) \/
     ((p2 > f2)%py = true /\ (p1 < f1)%py = true /\ (f1 > s1)%py = true)) /\
  (forall pr v sl, ~ In (Open1xLong pr v sl) (effects cycle)) /\
  (In CloseAll (effects cycle) ->
     intents (effects cycle) = [CloseAll] /\
     (len (close_all position_manager) = 1 ->
        result cycle = Returned (close_all position_manager)) /\
     (len (close_all position_manager) <> 1 ->
        result cycle = Raised AssertionError) /\
     (forall trades, result cycle = Returned trades -> len trades = 1)) /\
  (~ In CloseAll (effects cycle) ->
     intents (effects cycle) = [] /\ result cycle = Returned []).
Proof.
  intros Hlong. rewrite (cycle_long Hlong).
  pose proof closes_iff as Hiff.
  destruct (closes signals) eqn:Hc.
  - destruct (len (close_all position_manager) =? 1) eqn:Hone;
      unfold effects, result; simpl.
    + apply Z.eqb_eq in Hone.
      split; [|split; [|split]].
      * split; [intros _; now apply Hiff|auto].
      * intros pr v sl [H|[H|[H|[H|[]]]]]; discriminate H.
      * intros _. split; [reflexivity|]. split; [reflexivity|].
        split; [congruence|]. intros trades [= <-]. exact Hone.
      * intros H. exfalso. apply H. auto.
    + apply Z.eqb_neq in Hone.
      split; [|split; [|split]].
      * split; [intros _; now apply Hiff|auto].
      * intros pr v sl [H|[H|[]]]; discriminate H.
      * intros _. split; [reflexivity|]. split; [congruence|].
        split; [reflexivity|]. intros trades H. discriminate H.
      * intros H. exfalso. apply H. auto.
  - unfold effects, result; simpl.
    split; [|split; [|split]].
    + split.
      * intros [H|[H|[H|[]]]]; discriminate H.
      * intros H. apply Hiff in H. discriminate H.
    + intros pr v sl [H|[H|[H|[]]]]; discriminate H.
    + intros [H|[H|[H|[]]]]; discriminate H.
    + intros _. split; reflexivity.
Qed.

(** C6, as the code has it.  With sufficient data, an open position, fast
    crossunder true and slow crossover false, the fast-crossunder rule
    closes exactly while the latest fast EMA is strictly above the latest
    slow EMA: when it is not above, no close is requested and the trade list
    is empty; when it is above, the close is requested. *)
Theorem long_fast_crossunder_guard :
  is_any_open position_manager = true ->
  (p2 > f2)%py = true -> (p1 < f1)%py = true ->
  ((p3 < s2)%py && (p1 > s1)%py) = false ->
  ((f1 > s1)%py = false ->
     ~ In CloseAll (effects cycle) /\
     intents (effects cycle) = [] /\
     result cycle = Returned []) /\
  ((f1 > s1)%py = true -> In CloseAll (effects cycle)).
Proof.
  intros Hlong H2 H1 Hx. rewrite (cycle_long Hlong).
  unfold closes, signals. simpl. rewrite Hx, H2, H1. simpl.
  split; intros ->; simpl.
  - unfold effects, result; simpl. split; [|split; reflexivity].
    intros [H|[H|[H|[]]]]; discriminate H.
  - destruct (len (close_all position_manager) =? 1);
      unfold effects; simpl; auto.
Qed.

(** C10.  The comparisons are strict.  With sufficient data and the latest
    close equal ([==]) to the latest slow EMA, the computed slow crossover
    and slow crossunder are both false and so is the bootstrap condition;
    a cycle with no open position then requests no trade and returns the
    empty list. *)
Theorem equal_price_no_signal :
  (p1 == s1)%py = true ->
  exists s : Signals,
    compute_signals (Pair:=Pair) close_prices (spre ++ [s2; s1]) (fpre ++ [f2; f1])
      = ret s /\
    slow_ema_crossover s = false /\
    slow_ema_crossunder s = false /\
    ((price_latest s < slow_ema_latest s)%py
     && Timestamp_eqb timestamp START_AT) = false /\
    (is_any_open position_manager = false ->
       intents (effects cycle) = [] /\ result cycle = Returned []).
Proof.
  intros Heq.
  pose proof (FloatFacts.eq_not_lt _ _ Heq) as Hlt.
  pose proof (FloatFacts.eq_not_gt _ _ Heq) as Hgt.
  exists signals. split; [exact signals_sufficient|].
  unfold signals; simpl. rewrite Hlt, Hgt, !andb_false_r.
  do 3 (split; [reflexivity|]).
  intros Hflat. rewrite (cycle_flat Hflat).
  unfold opens, signals; simpl. rewrite Hlt, andb_false_r.
  split; reflexivity.
Qed.

End SufficientData.

(** *** Every cycle *)

Lemma compute_signals_short (slow fast : Series) :
  2 <= len slow -> 2 <= len fast -> len close_prices < 3 ->
  compute_signals (Pair:=Pair) close_prices slow fast = raise IndexError.
Proof.
  intros Hls Hlf Hc.
  destruct (len_ge_tail2 _ Hls) as (spre & s2 & s1 & ->).
  destruct (len_ge_tail2 _ Hlf) as (fpre & f2 & f1 & ->).
  unfold compute_signals.
  rewrite (iloc_m1 _ _ s1 (tail2_tail1 spre s2 s1)), bind_ret.
  rewrite (iloc_m1 _ _ f1 (tail2_tail1 fpre f2 f1)), bind_ret.
  destruct (Z_lt_le_dec (len close_prices) 1) as [H0|H1].
  - now rewrite (iloc_out_of_bounds close_prices 1 H0), bind_raise.
  - destruct (iloc_in_bounds (E:=event Pair) close_prices 1) as [p1 Hp1]; [lia|].
    change (- (1)) with (-1) in Hp1. rewrite Hp1, bind_ret.
    now rewrite (iloc_out_of_bounds close_prices 3 Hc), !bind_raise.
Qed.

(** Every cycle, by the branch it takes. *)
Lemma cycle_shapes :
  cycle = (Returned [], [warn_none]) \/
  cycle = (Returned [], [warn_short]) \/
  cycle = (Raised IndexError, []) \/
  (exists s,
     is_any_open position_manager = false /\
     cycle =
       if opens s
       then (Returned (open_1x_long position_manager pair
                         (cash * POSITION_SIZE)%float STOP_LOSS_PCT),
             [log_flat; open_intent;
              plot_slow (slow_ema_latest s); plot_fast (fast_ema_latest s)])
       else (Returned [],
             [log_flat; plot_slow (slow_ema_latest s);
              plot_fast (fast_ema_latest s)])) \/
  (exists s,
     is_any_open position_manager = true /\
     cycle =
       if closes s
       then if len (close_all position_manager) =? 1
            then (Returned (close_all position_manager),
                  [log_long; CloseAll;
                   plot_slow (slow_ema_latest s); plot_fast (fast_ema_latest s)])
            else (Raised AssertionError, [log_long; CloseAll])
       else (Returned [],
             [log_long; plot_slow (slow_ema_latest s);
              plot_fast (fast_ema_latest s)])).
Proof.
  destruct (ema close_prices SLOW_EMA_CANDLE_COUNT) as [slow|] eqn:Hs;
    [|left; apply cycle_ema_none; now left].
  destruct (ema close_prices FAST_EMA_CANDLE_COUNT) as [fast|] eqn:Hf;
    [|left; apply cycle_ema_none; now right].
  destruct (Z_lt_le_dec (len slow) 2) as [Hls|Hls];
    [right; left; apply (cycle_too_short slow fast Hs Hf); now left|].
  destruct (Z_lt_le_dec (len fast) 2) as [Hlf|Hlf];
    [right; left; apply (cycle_too_short slow fast Hs Hf); now right|].
  right; right. rewrite (cycle_past_guards slow fast Hs Hf Hls Hlf).
  destruct (Z_lt_le_dec (len close_prices) 3) as [Hc|Hc].
  - left. now rewrite (compute_signals_short slow fast Hls Hlf Hc), bind_raise.
  - right.
    destruct (silent_cases _ (compute_signals_silent (Pair:=Pair) close_prices slow fast))
      as [[s Hsig]|[e Hsig]].
    + rewrite Hsig, bind_ret.
      destruct (is_any_open position_manager) eqn:Ho.
      * right. exists s. split; [reflexivity|]. exact (after_signals_long s Ho).
      * left. exists s. split; [reflexivity|]. exact (after_signals_flat s Ho).
    + exfalso.
      destruct (len_ge_tail3 _ Hc) as (pre & p3 & p2 & p1 & Hcl).
      destruct (len_ge_tail2 _ Hls) as (spre & s2 & s1 & ->).
      destruct (len_ge_tail2 _ Hlf) as (fpre & f2 & f1 & ->).
      rewrite (signals_sufficient pre spre fpre p3 p2 p1 s2 s1 f2 f1 Hcl) in Hsig.
      discriminate Hsig.
Qed.

(** C1, as the code has it.  Every cycle requests at most one trade intent:
    one open, or one close, or nothing, never both.  A cycle that returns,
    returns the empty list when it requested nothing; the position manager's
    answer to the close when it requested one, asserted to be exactly one
    record; and the position manager's answer to the open when it requested
    one, however many records that answer holds: the open path has no
    assertion. *)
Theorem at_most_one_intent :
  (intents (effects cycle) = [] \/
   intents (effects cycle) = [CloseAll] \/
   intents (effects cycle) =
     [Open1xLong pair (cash * 0.70)%float 0.993%float]) /\
  (forall trades,
     result cycle = Returned trades ->
     (intents (effects cycle) = [] /\ trades = []) \/
     (intents (effects cycle) = [CloseAll] /\
      trades = close_all position_manager /\ len trades = 1) \/
     (intents (effects cycle) =
        [Open1xLong pair (cash * 0.70)%float 0.993%float] /\
      trades = open_1x_long position_manager pair
                 (cash * 0.70)%float 0.993%float)).
Proof.
  destruct cycle_shapes as [-> |[-> |[-> |[(s & Ho & ->)|(s & Ho & ->)]]]].
  - split; [now left|]. intros trades [= <-]. left. now split.
  - split; [now left|]. intros trades [= <-]. left. now split.
  - split; [now left|]. intros trades H. discriminate H.
  - destruct (opens s).
    + split; [right; right; reflexivity|].
      intros trades [= <-]. right; right. now split.
    + split; [now left|]. intros trades [= <-]. left. now split.
  - destruct (closes s);
      [destruct (len (close_all position_manager) =? 1) eqn:H1|].
    + split; [right; now left|].
      intros trades [= <-]. right; left. apply Z.eqb_eq in H1. now repeat split.
    + split; [right; now left|]. intros trades H. discriminate H.
    + split; [now left|]. intros trades [= <-]. left. now split.
Qed.

(** C7, as the code has it.  Past the guards the reads of both EMA series
    are in bounds.  The closes have no guard: their reads are in bounds,
    the signals are computed and no [IndexError] is raised when the window
    holds 3 closes or more, and with fewer the read three steps back raises
    and the cycle ends in [IndexError] before any effect.  With an EMA
    engine that is undefined on windows shorter than its length, a window
    of fewer than [FAST_EMA_CANDLE_COUNT] = 3 closes does not get past the
    guards at all. *)
Theorem index_reads_past_guards (slow fast : Series) :
  ema close_prices SLOW_EMA_CANDLE_COUNT = Some slow ->
  ema close_prices FAST_EMA_CANDLE_COUNT = Some fast ->
  2 <= len slow -> 2 <= len fast ->
  (exists s2 s1 f2 f1,
     iloc (E:=event Pair) slow (-2) = ret s2 /\
     iloc (E:=event Pair) slow (-1) = ret s1 /\
     iloc (E:=event Pair) fast (-2) = ret f2 /\
     iloc (E:=event Pair) fast (-1) = ret f1) /\
  (3 <= len close_prices ->
     (exists p3 p2 p1,
        iloc (E:=event Pair) close_prices (-3) = ret p3 /\
        iloc (E:=event Pair) close_prices (-2) = ret p2 /\
        iloc (E:=event Pair) close_prices (-1) = ret p1) /\
     (exists s, compute_signals (Pair:=Pair) close_prices slow fast = ret s) /\
     result cycle <> Raised IndexError) /\
  (len close_prices < 3 ->
     iloc (E:=event Pair) close_prices (-3) = raise IndexError /\
     cycle = (Raised IndexError, [])) /\
  (ema_undefined_when_short ema -> 3 <= len close_prices).
Proof.
  intros Hs Hf Hls Hlf.
  split; [|split; [|split]].
  - destruct (len_ge_tail2 _ Hls) as (spre & s2 & s1 & ->).
    destruct (len_ge_tail2 _ Hlf) as (fpre & f2 & f1 & ->).
    exists s2, s1, f2, f1.
    split; [apply (iloc_m2 _ spre s2 s1 eq_refl)|].
    split; [apply (iloc_m1 _ _ s1 (tail2_tail1 spre s2 s1))|].
    split; [apply (iloc_m2 _ fpre f2 f1 eq_refl)|].
    apply (iloc_m1 _ _ f1 (tail2_tail1 fpre f2 f1)).
  - intros Hlc.
    destruct (len_ge_tail3 _ Hlc) as (pre & p3 & p2 & p1 & Hcl).
    destruct (len_ge_tail2 _ Hls) as (spre & s2 & s1 & ->).
    destruct (len_ge_tail2 _ Hlf) as (fpre & f2 & f1 & ->).
    split; [|split].
    + exists p3, p2, p1. rewrite Hcl.
      split; [apply (iloc_m3 _ pre p3 p2 p1 eq_refl)|].
      split; [apply (iloc_m2 _ _ p2 p1 (tail3_tail2 pre p3 p2 p1))|].
      apply (iloc_m1 _ _ p1 (tail3_tail1 pre p3 p2 p1)).
    + eexists. apply (signals_sufficient pre spre fpre p3 p2 p1 s2 s1 f2 f1 Hcl).
    + destruct (is_any_open position_manager) eqn:Ho.
      * rewrite (cycle_long pre spre fpre p3 p2 p1 s2 s1 f2 f1 Hcl Hs Hf Ho).
        destruct (closes _); [destruct (_ =? 1)|]; discriminate.
      * rewrite (cycle_flat pre spre fpre p3 p2 p1 s2 s1 f2 f1 Hcl Hs Hf Ho).
        destruct (opens _); discriminate.
  - intros Hlc. split; [exact (iloc_out_of_bounds close_prices 3 Hlc)|].
    rewrite (cycle_past_guards slow fast Hs Hf Hls Hlf).
    now rewrite (compute_signals_short slow fast Hls Hlf Hlc), bind_raise.
  - intros Hc.
    destruct (Z_lt_le_dec (len close_prices) 3) as [H|H]; [|exact H].
    rewrite (Hc close_prices FAST_EMA_CANDLE_COUNT H) in Hf. discriminate Hf.
Qed.

(** C9, as the code has it.  The plots are the last thing a cycle does.  A
    cycle that passes the guards and returns has sent exactly the latest
    slow EMA as "Slow EMA" in green and then the latest fast EMA as
    "Fast EMA" in red, whatever the position state and the trades; one that
    passes the guards and raises has plotted nothing, and it raises either
    [IndexError], on a window of fewer than 3 closes, or [AssertionError],
    when a position is open and the close answered other than one record.
    A cycle that fails a guard returns the empty list and plots nothing. *)
Theorem plots_of_returning_cycles :
  (forall slow fast,
     ema close_prices SLOW_EMA_CANDLE_COUNT = Some slow ->
     ema close_prices FAST_EMA_CANDLE_COUNT = Some fast ->
     2 <= len slow -> 2 <= len fast ->
     exists spre s1 fpre f1,
       slow = spre ++ [s1] /\ fast = fpre ++ [f1] /\
       (forall trades,
          result cycle = Returned trades ->
          plots (effects cycle) =
            [PlotIndicator timestamp "Slow EMA"%string
                           technical_indicator_on_price s1 "green"%string;
             PlotIndicator timestamp "Fast EMA"%string
                           technical_indicator_on_price f1 "red"%string]) /\
       (forall e,
          result cycle = Raised e ->
          plots (effects cycle) = [] /\
          ((e = IndexError /\ len close_prices < 3) \/
           (e = AssertionError /\
            is_any_open position_manager = true /\
            len (close_all position_manager) <> 1)))) /\
  (ema close_prices SLOW_EMA_CANDLE_COUNT = None \/
   ema close_prices FAST_EMA_CANDLE_COUNT = None \/
   (exists slow fast,
      ema close_prices SLOW_EMA_CANDLE_COUNT = Some slow /\
      ema close_prices FAST_EMA_CANDLE_COUNT = Some fast /\
      (len slow < 2 \/ len fast < 2)) ->
   result cycle = Returned [] /\ plots (effects cycle) = []).
Proof.
  split.
  - intros slow fast Hs Hf Hls Hlf.
    destruct (len_ge_tail2 _ Hls) as (spre & s2 & s1 & ->).
    destruct (len_ge_tail2 _ Hlf) as (fpre & f2 & f1 & ->).
    exists (spre ++ [s2]), s1, (fpre ++ [f2]), f1.
    split; [apply tail2_tail1|]. split; [apply tail2_tail1|].
    destruct (Z_lt_le_dec (len close_prices) 3) as [Hlc|Hlc].
    + rewrite (cycle_past_guards _ _ Hs Hf Hls Hlf).
      rewrite (compute_signals_short _ _ Hls Hlf Hlc), bind_raise.
      split; [intros trades H; discriminate H|].
      intros e [= <-]. split; [reflexivity|]. left. now split.
    + destruct (len_ge_tail3 _ Hlc) as (pre & p3 & p2 & p1 & Hcl).
      destruct (is_any_open position_manager) eqn:Ho.
      * rewrite (cycle_long pre spre fpre p3 p2 p1 s2 s1 f2 f1 Hcl Hs Hf Ho).
        destruct (closes _);
          [destruct (len (close_all position_manager) =? 1) eqn:H1|].
        -- split; [reflexivity|]. intros e H. discriminate H.
        -- split; [intros trades H; discriminate H|].
           intros e [= <-]. split; [reflexivity|]. right.
           apply Z.eqb_neq in H1. now repeat split.
        -- split; [reflexivity|]. intros e H. discriminate H.
      * rewrite (cycle_flat pre spre fpre p3 p2 p1 s2 s1 f2 f1 Hcl Hs Hf Ho).
        destruct (opens _); (split; [reflexivity|]; intros e H; discriminate H).
  - intros [H|[H|(slow & fast & Hs & Hf & H)]].
    + rewrite cycle_ema_none by now left. split; reflexivity.
    + rewrite cycle_ema_none by now right. split; reflexivity.
    + rewrite (cycle_too_short slow fast Hs Hf H). split; reflexivity.
Qed.

(** *** Beyond the specification: bounds, aborts and the order of effects *)

(** X1.  The read three closes back is the one read the guards do not
    cover: once both EMA series are there with two points or more, the
    cycle raises [IndexError] exactly when the window holds fewer than three
    closes, and then before any effect: nothing logged, asked or plotted. *)
Theorem index_error_iff_short_window (slow fast : Series) :
  ema close_prices SLOW_EMA_CANDLE_COUNT = Some slow ->
  ema close_prices FAST_EMA_CANDLE_COUNT = Some fast ->
  2 <= len slow -> 2 <= len fast ->
  (result cycle = Raised IndexError <-> len close_prices < 3) /\
  (len close_prices < 3 -> effects cycle = []).
Proof.
  intros Hs Hf Hls Hlf.
  rewrite (cycle_past_guards slow fast Hs Hf Hls Hlf).
  destruct (Z_lt_le_dec (len close_prices) 3) as [Hc|Hc].
  - rewrite (compute_signals_short slow fast Hls Hlf Hc), bind_raise.
    split; [split; auto|reflexivity].
  - split; [|lia]. split; [|lia]. intros H. exfalso.
    destruct (len_ge_tail3 _ Hc) as (pre & p3 & p2 & p1 & Hcl).
    destruct (len_ge_tail2 _ Hls) as (spre & s2 & s1 & ->).
    destruct (len_ge_tail2 _ Hlf) as (fpre & f2 & f1 & ->).
    rewrite (signals_sufficient pre spre fpre p3 p2 p1 s2 s1 f2 f1 Hcl), bind_ret in H.
    destruct (is_any_open position_manager) eqn:Ho.
    + rewrite (after_signals_long _ Ho) in H.
      destruct (closes _); [destruct (_ =? 1)|]; discriminate H.
    + rewrite (after_signals_flat _ Ho) in H.
      destruct (opens _); discriminate H.
Qed.

(** X2.  A cycle raises [AssertionError] only on the close path: a position
    is open, the close was asked for, and the position manager answered with
    a number of records other than one.  The close has then already been
    requested, and neither EMA value reaches the visualisation. *)
Theorem assertion_error_after_close :
  result cycle = Raised AssertionError ->
  is_any_open position_manager = true /\
  len (close_all position_manager) <> 1 /\
  effects cycle = [Log TRADE "Checking for close"%string; CloseAll] /\
  plots (effects cycle) = [].
Proof.
  destruct cycle_shapes as [-> |[-> |[-> |[(s & Ho & ->)|(s & Ho & ->)]]]];
    try discriminate.
  - destruct (opens s); discriminate.
  - destruct (closes s); [|discriminate].
    destruct (len (close_all position_manager) =? 1) eqn:H1; [discriminate|].
    intros _. apply Z.eqb_neq in H1. repeat split; assumption.
Qed.

(** X3.  In every cycle an open is requested only while no position is
    open and a close only while one is; and a cycle that requests neither
    returns the empty trade list whenever it returns. *)
Theorem intents_respect_position_state :
  (forall pr v sl,
     In (Open1xLong pr v sl) (effects cycle) ->
     is_any_open position_manager = false) /\
  (In CloseAll (effects cycle) -> is_any_open position_manager = true) /\
  (intents (effects cycle) = [] ->
   forall trades, result cycle = Returned trades -> trades = []).
Proof.
  destruct cycle_shapes as [-> |[-> |[-> |[(s & Ho & ->)|(s & Ho & ->)]]]].
  - split; [|split].
    + intros pr v sl [H|[]]; discriminate H.
    + intros [H|[]]; discriminate H.
    + intros _ trades [= <-]. reflexivity.
  - split; [|split].
    + intros pr v sl [H|[]]; discriminate H.
    + intros [H|[]]; discriminate H.
    + intros _ trades [= <-]. reflexivity.
  - split; [|split].
    + intros pr v sl [].
    + intros [].
    + intros _ trades H. discriminate H.
  - split; [auto|split].
    + destruct (opens s); unfold effects; simpl.
      * intros [H|[H|[H|[H|[]]]]]; discriminate H.
      * intros [H|[H|[H|[]]]]; discriminate H.
    + destruct (opens s); unfold effects, result; simpl.
      * intros H. discriminate H.
      * intros _ trades [= <-]. reflexivity.
  - split; [|split; [auto|]].
    + destruct (closes s); [destruct (_ =? 1)|]; unfold effects; simpl.
      * intros pr v sl [H|[H|[H|[H|[]]]]]; discriminate H.
      * intros pr v sl [H|[H|[]]]; discriminate H.
      * intros pr v sl [H|[H|[H|[]]]]; discriminate H.
    + destruct (closes s); [destruct (_ =? 1)|]; unfold effects, result; simpl.
      * intros H. discriminate H.
      * intros H. discriminate H.
      * intros _ trades [= <-]. reflexivity.
Qed.

(** X8.  The effects of every cycle come in one order: at most one log
    line, then at most one trade request (nothing, one close or one open),
    then the plots; and the plots are none or the two of them. *)
Theorem effects_in_order :
  effects cycle =
    logs (effects cycle) ++ intents (effects cycle) ++ plots (effects cycle) /\
  (List.length (logs (effects cycle)) <= 1)%nat /\
  (intents (effects cycle) = [] \/
   intents (effects cycle) = [CloseAll] \/
   exists pr v sl, intents (effects cycle) = [Open1xLong pr v sl]) /\
  (plots (effects cycle) = [] \/
   exists v w,
     plots (effects cycle) =
       [PlotIndicator timestamp "Slow EMA"%string
                      technical_indicator_on_price v "green"%string;
        PlotIndicator timestamp "Fast EMA"%string
                      technical_indicator_on_price w "red"%string]).
Proof.
  destruct cycle_shapes as [-> |[-> |[-> |[(s & Ho & ->)|(s & Ho & ->)]]]].
  - split; [reflexivity|]. split; [apply Nat.le_refl|]. split; now left.
  - split; [reflexivity|]. split; [apply Nat.le_refl|]. split; now left.
  - split; [reflexivity|]. split; [apply Nat.le_0_l|]. split; now left.
  - destruct (opens s);
      (split; [reflexivity|]; split; [apply Nat.le_refl|]); split.
    + right; right. eexists; eexists; eexists; reflexivity.
    + right; eexists; eexists; reflexivity.
    + now left.
    + right; eexists; eexists; reflexivity.
  - destruct (closes s); [destruct (_ =? 1)|];
      (split; [reflexivity|]; split; [apply Nat.le_refl|]); split.
    + right; now left.
    + right; eexists; eexists; reflexivity.
    + right; now left.
    + now left.
    + now left.
    + right; eexists; eexists; reflexivity.
Qed.

(** *** Undefined (NaN) moving averages *)

Section NaN.
Variables (pre spre fpre : Series) (p3 p2 p1 s2 s1 f2 f1 : float).
Hypothesis H_close : close_prices = pre ++ [p3; p2; p1].
Hypothesis H_slow :
  ema close_prices SLOW_EMA_CANDLE_COUNT = Some (spre ++ [s2; s1]).
Hypothesis H_fast :
  ema close_prices FAST_EMA_CANDLE_COUNT = Some (fpre ++ [f2; f1]).

(** X4.  Every comparison with NaN is false, so a cycle whose latest slow
    EMA is NaN ([s1 != s1]) trades in neither position state: it requests
    nothing, returns the empty list and still plots both values, also at
    [START_AT] and also when the fast EMA signals a crossunder. *)
Theorem nan_slow_ema_no_trade :
  (s1 == s1)%py = false ->
  intents (effects cycle) = [] /\
  result cycle = Returned [] /\
  plots (effects cycle) =
    [PlotIndicator timestamp "Slow EMA"%string
                   technical_indicator_on_price s1 "green"%string;
     PlotIndicator timestamp "Fast EMA"%string
                   technical_indicator_on_price f1 "red"%string].
Proof.
  intros Hnan.
  assert (Hlt : (p1 < s1)%py = false) by apply (FloatFacts.nan_not_lt s1 p1 Hnan).
  assert (Hgt : (p1 > s1)%py = false) by apply (FloatFacts.nan_not_lt s1 p1 Hnan).
  assert (Hfg : (f1 > s1)%py = false) by apply (FloatFacts.nan_not_lt s1 f1 Hnan).
  destruct (is_any_open position_manager) eqn:Ho.
  - rewrite (cycle_long pre spre fpre p3 p2 p1 s2 s1 f2 f1 H_close H_slow H_fast Ho).
    destruct (closes _) eqn:Hc; [|repeat split].
    apply closes_iff in Hc. destruct Hc as [[_ H]|(_ & _ & H)]; congruence.
  - rewrite (cycle_flat pre spre fpre p3 p2 p1 s2 s1 f2 f1 H_close H_slow H_fast Ho).
    destruct (opens _) eqn:Hc; [|repeat split].
    apply opens_iff in Hc. destruct Hc as [[_ H]|[_ H]]; congruence.
Qed.

(** X5.  When only the slow EMA two steps back is NaN (its first defined
    point is the latest one), both slow flags are false: a cycle with no
    position opens by the bootstrap rule alone, and a cycle with a position
    closes by the fast crossunder rule alone. *)
Theorem nan_slow_ema_two_back :
  (s2 == s2)%py = false ->
  (is_any_open position_manager = false ->
     ((exists pr v sl, In (Open1xLong pr v sl) (effects cycle)) <->
      timestamp = START_AT /\ (p1 < s1)%py = true)) /\
  (is_any_open position_manager = true ->
     (In CloseAll (effects cycle) <->
      (p2 > f2)%py = true /\ (p1 < f1)%py = true /\ (f1 > s1)%py = true)).
Proof.
  intros Hnan.
  assert (Hx : (p3 < s2)%py = false) by apply (FloatFacts.nan_not_lt s2 p3 Hnan).
  assert (Hu : (p2 > s2)%py = false) by apply (FloatFacts.nan_not_lt s2 p2 Hnan).
  split; intros Ho.
  - rewrite (cycle_flat pre spre fpre p3 p2 p1 s2 s1 f2 f1 H_close H_slow H_fast Ho).
    pose proof (opens_iff p3 p2 p1 s2 s1 f2 f1) as Hiff.
    destruct (opens _) eqn:Hc.
    + split; [intros _|].
      * destruct (proj1 Hiff eq_refl) as [[H _]|H]; [congruence|exact H].
      * intros _. exists pair, (cash * POSITION_SIZE)%float, STOP_LOSS_PCT.
        right. left. reflexivity.
    + split.
      * intros (pr & v & sl & [H|[H|[H|[]]]]); discriminate H.
      * intros H. discriminate (proj2 Hiff (or_intror H)).
  - rewrite (cycle_long pre spre fpre p3 p2 p1 s2 s1 f2 f1 H_close H_slow H_fast Ho).
    pose proof (closes_iff p3 p2 p1 s2 s1 f2 f1) as Hiff.
    destruct (closes _) eqn:Hc.
    + split; [intros _|].
      * destruct (proj1 Hiff eq_refl) as [[H _]|H]; [congruence|exact H].
      * intros _. destruct (_ =? 1); right; left; reflexivity.
    + split.
      * intros [H|[H|[H|[]]]]; discriminate H.
      * intros H. discriminate (proj2 Hiff (or_intror H)).
Qed.

End NaN.

End Cycle.

(** ** The flags against each other *)

(** One read of a computation known to return: it returned too. *)
Ltac read_or_raise :=
  match goal with
  | H : context [bind (@iloc ?E ?s ?i) _] |- _ =>
      let x := fresh "x" in
      let Hx := fresh "Hx" in
      destruct (silent_cases _ (silent_iloc (E:=E) s i)) as [[x Hx]|[x Hx]];
      rewrite Hx in H;
      [rewrite bind_ret in H | rewrite ?bind_raise in H; discriminate H]
  end.

(** X6.  Whatever the window, the signals never report a slow crossover and
    a slow crossunder together: both flags test the same latest close
    against the same latest slow EMA, one strictly above and one strictly
    below. *)
Theorem slow_flags_exclusive {Pair : Type}
    (close_prices slow_ema_series fast_ema_series : Series) (s : Signals) :
  compute_signals (Pair:=Pair) close_prices slow_ema_series fast_ema_series
    = ret s ->
  slow_ema_crossover s && slow_ema_crossunder s = false.
Proof.
  intros H. unfold compute_signals in H.
  repeat read_or_raise. rewrite ?bind_ret in H.
  injection H as <-. simpl.
  match goal with
  | |- (_ && (?p > ?e)%py) && (_ && (?p < ?e)%py) = false =>
      destruct (p > e)%py eqn:Hgt;
      [rewrite (FloatFacts.gt_lt_false _ _ Hgt)|];
      now rewrite !andb_false_r
  end.
Qed.

(** ** Cash sizes a trade and decides nothing *)

Section Cash.
Context {Pair TradeExecution State PricingModel : Type}.
Variable ema : Series -> Z -> option Series.
Variables cash1 cash2 : State -> float.
Variable PositionManager_new :
  Timestamp -> Universe Pair -> State -> PricingModel ->
  PositionManager Pair TradeExecution.
Variables (timestamp : Timestamp) (universe : Universe Pair)
          (state : State) (pricing_model : PricingModel).

(** X7.  The available cash is read only to size an open.  Two cycles that
    differ in nothing but the cash perform the same effects up to the amount
    of the open, and raise or return alike; no cash amount, zero and
    negative included, keeps a cycle from asking for the open. *)
Theorem cash_decides_nothing :
  let run1 := decide_trades ema cash1 PositionManager_new
                            timestamp universe state pricing_model in
  let run2 := decide_trades ema cash2 PositionManager_new
                            timestamp universe state pricing_model in
  map forget_value (effects run1) = map forget_value (effects run2) /\
  (forall e, result run1 = Raised e <-> result run2 = Raised e) /\
  (forall pr v sl,
     In (Open1xLong pr v sl) (effects run1) ->
     v = (cash1 state * POSITION_SIZE)%float /\
     In (Open1xLong pr (cash2 state * POSITION_SIZE)%float sl) (effects run2)).
Proof.
  intros run1 run2. unfold run1, run2, decide_trades.
  set (close_prices :=
         column_close (candles_get_single_pair_data universe timestamp BATCH_SIZE)).
  destruct (ema close_prices SLOW_EMA_CANDLE_COUNT) as [slow|];
    [|split; [reflexivity|split; [reflexivity|intros pr v sl [H|[]]; discriminate H]]].
  destruct (ema close_prices FAST_EMA_CANDLE_COUNT) as [fast|];
    [|split; [reflexivity|split; [reflexivity|intros pr v sl [H|[]]; discriminate H]]].
  destruct ((len slow <? 2) || (len fast <? 2));
    [split; [reflexivity|split; [reflexivity|intros pr v sl [H|[]]; discriminate H]]|].
  destruct (silent_cases _ (compute_signals_silent (Pair:=Pair) close_prices slow fast))
    as [[s ->]|[e ->]].
  - rewrite !bind_ret.
    destruct (is_any_open (PositionManager_new timestamp universe state pricing_model))
      eqn:Ho.
    + rewrite (after_signals_long cash1 PositionManager_new _ _ _ _ s Ho).
      rewrite (after_signals_long cash2 PositionManager_new _ _ _ _ s Ho).
      split; [reflexivity|]. split; [reflexivity|].
      destruct (slow_ema_crossover s || _); [destruct (_ =? 1)|];
        unfold effects; simpl.
      * intros pr v sl [H|[H|[H|[H|[]]]]]; discriminate H.
      * intros pr v sl [H|[H|[]]]; discriminate H.
      * intros pr v sl [H|[H|[H|[]]]]; discriminate H.
    + rewrite (after_signals_flat cash1 PositionManager_new _ _ _ _ s Ho).
      rewrite (after_signals_flat cash2 PositionManager_new _ _ _ _ s Ho).
      destruct (slow_ema_crossunder s || _); unfold effects, result; simpl.
      * split; [reflexivity|]. split; [split; intros H; discriminate H|].
        intros pr v sl [H|[H|[H|[H|[]]]]]; try discriminate H.
        injection H as <- <- <-. split; [reflexivity|]. right. left. reflexivity.
      * split; [reflexivity|]. split; [reflexivity|].
        intros pr v sl [H|[H|[H|[]]]]; discriminate H.
  - rewrite !bind_raise. unfold effects, result; simpl.
    split; [reflexivity|]. split; [reflexivity|]. intros pr v sl [].
Qed.

End Cash.

(** ** The reference engine keeps the contract *)

Lemma reference_ema_undefined_when_short :
  ema_undefined_when_short Reference.ema.
Proof.
  intros close_prices length H. unfold Reference.ema.
  apply Z.ltb_lt in H. now rewrite H.
Qed.


(** ** The properties on concrete cycles *)

(** Scenario D as worded fails: eleven rising closes and a dip to 18, with
    a position open.  Fast crossunder holds (20 > 19 and 18 < 18.5), slow
    crossover does not (19 is not below 15.5), the fast EMA 18.5 is above
    the slow EMA 15.95..., and the cycle closes. *)
Lemma scenario_D_closes :
  ~ scenario_D_as_stated Reference.ema Demo.cash Demo.position_manager
      Demo.later (Demo.universe (Demo.rising_then 18)) Demo.long tt
      Demo.rising_pre [14.5]%float Demo.rising_fast_pre
      19 20 18 15.5 15.954545454545455 19 18.5.
Proof.
  intros H. apply H; try (vm_compute; reflexivity).
  vm_compute. right. left. reflexivity.
Qed.

Lemma long_fast_crossunder_guard_witness :
  result (Demo.decide Demo.later (Demo.falling_then 18 14) Demo.long) = Returned [] /\
  ~ In CloseAll (effects (Demo.decide Demo.later (Demo.falling_then 18 14) Demo.long)).
Proof.
  assert (H := long_fast_crossunder_guard
    Reference.ema Demo.cash Demo.position_manager
    Demo.later (Demo.universe (Demo.falling_then 18 14)) Demo.long tt
    Demo.falling_pre Demo.falling_slow_pre Demo.falling_fast_pre
    16 18 14 20.045454545454543 18.946280991735534 17.5 15.75).
  destruct H as [H _]; try (vm_compute; reflexivity).
  destruct H as (Hno & _ & Hres); [vm_compute; reflexivity|].
  split; [exact Hres|exact Hno].
Defined.

Lemma undefined_ema_no_trade_witness :
  len [1; 2; 3; 4; 5]%float < SLOW_EMA_CANDLE_COUNT /\
  result (Demo.decide Demo.later [1; 2; 3; 4; 5]%float Demo.flat) = Returned [] /\
  intents (effects (Demo.decide Demo.later [1; 2; 3; 4; 5]%float Demo.flat)) = [].
Proof.
  split; [reflexivity|].
  destruct (undefined_ema_no_trade Reference.ema Demo.cash Demo.position_manager
              Demo.later (Demo.universe [1; 2; 3; 4; 5]%float) Demo.flat tt)
    as (Hr & _ & Hi).
  - right. right. split; [exact reference_ema_undefined_when_short|].
    left. reflexivity.
  - split; [exact Hr|exact Hi].
Defined.

Lemma signal_flags_offsets_witness :
  exists s : Signals,
    (slow_ema_crossover s = true <->
       (19 < 15.5)%py = true /\ (18 > 15.954545454545455)%py = true) /\
    (slow_ema_crossunder s = true <->
       (20 > 15.5)%py = true /\ (18 < 15.954545454545455)%py = true) /\
    (fast_ema_crossunder s = true <->
       (20 > 19)%py = true /\ (18 < 18.5)%py = true) /\
    price_latest s = 18%float.
Proof.
  destruct (signal_flags_offsets Reference.ema Demo.cash Demo.position_manager
              Demo.later (Demo.universe (Demo.rising_then 18)) Demo.long tt
              Demo.rising_pre [14.5]%float Demo.rising_fast_pre
              19 20 18 15.5 15.954545454545455 19 18.5)
    as (s & _ & _ & Hx & Hu & Hf & _ & _ & Hp); try (vm_compute; reflexivity).
  exists s. split; [exact Hx|]. split; [exact Hu|]. split; [exact Hf|exact Hp].
Defined.

Lemma flat_opens_iff_witness :
  (20 > 15.5)%py = true /\ (10 < 14.5)%py = true /\
  exists pr v sl,
    In (Open1xLong pr v sl)
       (effects (Demo.decide Demo.later (Demo.rising_then 10) Demo.flat)).
Proof.
  split; [reflexivity|]. split; [reflexivity|].
  refine (proj2 (proj1 (flat_opens_iff
    Reference.ema Demo.cash Demo.position_manager
    Demo.later (Demo.universe (Demo.rising_then 10)) Demo.flat tt
    Demo.rising_pre [14.5]%float Demo.rising_fast_pre
    19 20 10 15.5 14.5 19 14.5 _ _ _ _)) _);
    try (vm_compute; reflexivity).
  left. split; reflexivity.
Defined.

Lemma long_closes_iff_witness :
  In CloseAll (effects (Demo.decide Demo.later (Demo.rising_then 18) Demo.long)) /\
  result (Demo.decide Demo.later (Demo.rising_then 18) Demo.long)
    = Returned [Demo.Sell 0].
Proof.
  assert (H := long_closes_iff
    Reference.ema Demo.cash Demo.position_manager
    Demo.later (Demo.universe (Demo.rising_then 18)) Demo.long tt
    Demo.rising_pre [14.5]%float Demo.rising_fast_pre
    19 20 18 15.5 15.954545454545455 19 18.5).
  destruct H as (Hiff & _ & Hclose & _); try (vm_compute; reflexivity).
  assert (Hin : In CloseAll
            (effects (Demo.decide Demo.later (Demo.rising_then 18) Demo.long))).
  { apply Hiff. right. repeat split; reflexivity. }
  split; [exact Hin|].
  destruct (Hclose Hin) as (_ & Hone & _). apply Hone. reflexivity.
Defined.

Lemma equal_price_no_signal_witness :
  (8 == 8)%py = true /\
  intents (effects (Demo.decide START_AT Demo.level Demo.flat)) = [] /\
  result (Demo.decide START_AT Demo.level Demo.flat) = Returned [].
Proof.
  split; [reflexivity|].
  destruct (equal_price_no_signal
    Reference.ema Demo.cash Demo.position_manager
    START_AT (Demo.universe Demo.level) Demo.flat tt
    (repeat 8%float 9) [8]%float (repeat 8%float 8)
    8 8 8 8 8 8 8) as (s & _ & _ & _ & _ & H); try (vm_compute; reflexivity).
  apply H. reflexivity.
Defined.


Lemma index_error_iff_short_window_witness :
  len [1; 1]%float < 3 /\
  result (decide_trades Demo.two_point_ema Demo.cash Demo.position_manager
                        Demo.later (Demo.universe [1; 1]%float) Demo.flat tt)
    = Raised IndexError.
Proof.
  split; [reflexivity|].
  refine (proj2 (proj1 (index_error_iff_short_window
    Demo.two_point_ema Demo.cash Demo.position_manager
    Demo.later (Demo.universe [1; 1]%float) Demo.flat tt
    [1; 1]%float [1; 1]%float _ _ _ _)) _);
    vm_compute; solve [reflexivity | discriminate].
Defined.

Lemma assertion_error_after_close_witness :
  effects (Demo.decide Demo.later (Demo.rising_then 18) Demo.two_positions)
    = [Log TRADE "Checking for close"%string; CloseAll] /\
  plots (effects (Demo.decide Demo.later (Demo.rising_then 18) Demo.two_positions))
    = [].
Proof.
  destruct (assertion_error_after_close
    Reference.ema Demo.cash Demo.position_manager
    Demo.later (Demo.universe (Demo.rising_then 18)) Demo.two_positions tt)
    as (_ & _ & He & Hp).
  - vm_compute. reflexivity.
  - split; [exact He|exact Hp].
Defined.

Lemma nan_slow_ema_no_trade_witness :
  (nan == nan)%py = false /\
  intents (effects (Demo.decide START_AT (Demo.rising_then nan) Demo.long)) = [] /\
  result (Demo.decide START_AT (Demo.rising_then nan) Demo.long) = Returned [].
Proof.
  split; [reflexivity|].
  destruct (nan_slow_ema_no_trade
    Reference.ema Demo.cash Demo.position_manager
    START_AT (Demo.universe (Demo.rising_then nan)) Demo.long tt
    Demo.rising_pre [14.5]%float Demo.rising_fast_pre
    19 20 nan 15.5 nan 19 nan) as (Hi & Hr & _);
    try (vm_compute; reflexivity).
  split; [exact Hi|exact Hr].
Defined.

Lemma nan_slow_ema_two_back_witness :
  (nan == nan)%py = false /\
  exists pr v sl,
    In (Open1xLong pr v sl)
       (effects (decide_trades Demo.padded_ema Demo.cash Demo.position_manager
                               START_AT (Demo.universe Demo.falling_ten)
                               Demo.flat tt)).
Proof.
  split; [reflexivity|].
  refine (proj2 (proj1 (nan_slow_ema_two_back
    Demo.padded_ema Demo.cash Demo.position_manager
    START_AT (Demo.universe Demo.falling_ten) Demo.flat tt
    [20; 19; 18; 17; 16; 15; 14]%float (repeat nan 8)
    [nan; nan; 19; 18; 17; 16; 15; 14]%float
    13 12 11 nan 15.5 13 12 _ _ _ _) _) _);
    try (vm_compute; reflexivity).
  split; reflexivity.
Defined.

Lemma slow_flags_exclusive_witness :
  ((19 < 15.5)%py && (18 > 15.954545454545455)%py)
  && ((20 > 15.5)%py && (18 < 15.954545454545455)%py) = false.
Proof.
  refine (slow_flags_exclusive (Pair:=Demo.Pair)
    (Demo.rising_then 18) [14.5; 15.5; 15.954545454545455]%float
    (Demo.rising_fast_pre ++ [19; 18.5]%float)
    {| slow_ema_latest := 15.954545454545455;
       fast_ema_latest := 18.5;
       price_latest := 18;
       slow_ema_crossover := (19 < 15.5)%py && (18 > 15.954545454545455)%py;
       slow_ema_crossunder := (20 > 15.5)%py && (18 < 15.954545454545455)%py;
       fast_ema_crossunder := (20 > 19)%py && (18 < 18.5)%py |} _).
  vm_compute. reflexivity.
Defined.

(** The returned list is not bounded by the cycle: with a position manager
    that fills the open in two trades, a cycle with no position and a slow
    crossunder returns both. *)
Lemma open_answer_returned_whole :
  exists trades,
    result (decide_trades Reference.ema Demo.cash Demo.two_fill_manager
              Demo.later (Demo.universe (Demo.rising_then 10)) Demo.flat tt)
      = Returned trades /\
    len trades = 2.
Proof.
  exists [Demo.Buy Demo.TRADING_PAIR 3500 STOP_LOSS_PCT;
          Demo.Buy Demo.TRADING_PAIR 3500 STOP_LOSS_PCT].
  split; vm_compute; reflexivity.
Qed.

Lemma at_most_one_intent_witness :
  intents (effects (Demo.decide Demo.later (Demo.rising_then 10) Demo.flat))
    = [Open1xLong Demo.TRADING_PAIR 7000 0.993] /\
  open_1x_long (Demo.position_manager Demo.later
                  (Demo.universe (Demo.rising_then 10)) Demo.flat tt)
               Demo.TRADING_PAIR 7000 0.993
    = [Demo.Buy Demo.TRADING_PAIR 7000 0.993].
Proof.
  destruct (proj2 (at_most_one_intent
    Reference.ema Demo.cash Demo.position_manager
    Demo.later (Demo.universe (Demo.rising_then 10)) Demo.flat tt)
    [Demo.Buy Demo.TRADING_PAIR 7000 0.993])
    as [[H _]|[[H _]|[Hi Ht]]].
  - vm_compute. reflexivity.
  - vm_compute in H. discriminate H.
  - vm_compute in H. discriminate H.
  - split; [exact Hi|]. symmetry. exact Ht.
Defined.

(** Both EMA series with two points, two closes: the cycle passes the
    guards and fails on the read three steps back. *)
Lemma short_window_past_guards_raises :
  Demo.two_point_ema [1; 1]%float SLOW_EMA_CANDLE_COUNT = Some [1; 1]%float /\
  Demo.two_point_ema [1; 1]%float FAST_EMA_CANDLE_COUNT = Some [1; 1]%float /\
  len [1; 1]%float = 2 /\
  decide_trades Demo.two_point_ema Demo.cash Demo.position_manager
                Demo.later (Demo.universe [1; 1]%float) Demo.flat tt
    = (Raised IndexError, []).
Proof. repeat split. Qed.

Lemma index_reads_past_guards_witness :
  (exists s,
     compute_signals (Pair:=Demo.Pair) (Demo.rising_then 18)
       [14.5; 15.5; 15.954545454545455]%float
       (Demo.rising_fast_pre ++ [19; 18.5]%float) = ret s) /\
  result (Demo.decide Demo.later (Demo.rising_then 18) Demo.flat)
    <> Raised IndexError.
Proof.
  refine (proj2 (proj1 (proj2 (index_reads_past_guards
    Reference.ema Demo.cash Demo.position_manager
    Demo.later (Demo.universe (Demo.rising_then 18)) Demo.flat tt
    [14.5; 15.5; 15.954545454545455]%float
    (Demo.rising_fast_pre ++ [19; 18.5]%float) _ _ _ _)) _));
    vm_compute; solve [reflexivity | discriminate].
Defined.

(** Two positions open and a close signal: the cycle passes the guards,
    the close answers two records, the assertion fails and nothing is
    plotted. *)
Lemma aborted_close_plots_nothing :
  Reference.ema (Demo.rising_then 18) SLOW_EMA_CANDLE_COUNT
    = Some [14.5; 15.5; 15.954545454545455]%float /\
  Reference.ema (Demo.rising_then 18) FAST_EMA_CANDLE_COUNT
    = Some (Demo.rising_fast_pre ++ [19; 18.5]%float) /\
  result (Demo.decide Demo.later (Demo.rising_then 18) Demo.two_positions)
    = Raised AssertionError /\
  plots (effects (Demo.decide Demo.later (Demo.rising_then 18) Demo.two_positions))
    = [].
Proof. repeat split; vm_compute; reflexivity. Qed.

Lemma plots_of_returning_cycles_witness :
  plots (effects (Demo.decide Demo.later (Demo.rising_then 18) Demo.long)) =
    [PlotIndicator Demo.later "Slow EMA"%string
                   technical_indicator_on_price 15.954545454545455 "green"%string;
     PlotIndicator Demo.later "Fast EMA"%string
                   technical_indicator_on_price 18.5 "red"%string].
Proof.
  destruct (proj1 (plots_of_returning_cycles
    Reference.ema Demo.cash Demo.position_manager
    Demo.later (Demo.universe (Demo.rising_then 18)) Demo.long tt)
    [14.5; 15.5; 15.954545454545455]%float
    (Demo.rising_fast_pre ++ [19; 18.5]%float)
    ltac:(vm_compute; reflexivity) ltac:(vm_compute; reflexivity)
    ltac:(vm_compute; discriminate) ltac:(vm_compute; discriminate))
    as (spre & s1 & fpre & f1 & Hs & Hf & Hret & _).
  assert (Hf1 : f1 = 18.5%float).
  { assert (H : (Demo.rising_fast_pre ++ [19]%float) ++ [18.5]%float
                = fpre ++ [f1])
      by (rewrite <- Hf, <- app_assoc; reflexivity).
    now apply app_inj_tail in H as [_ <-]. }
  assert (Hs1 : s1 = 15.954545454545455%float).
  { assert (H : [14.5; 15.5]%float ++ [15.954545454545455]%float
                = spre ++ [s1])
      by (rewrite <- Hs; reflexivity).
    now apply app_inj_tail in H as [_ <-]. }
  subst s1 f1.
  apply (Hret [Demo.Sell 0]). vm_compute. reflexivity.
Defined.
